(** * InstallPrompt: the install banner of a progressive web application

    A shallow embedding of [src/New folder/InstallPrompt.js], a React
    function component, and the properties of its small state machine.

    The component owns two pieces of React state ([showPrompt] and
    [deferredPrompt]), reads two keys of [localStorage] once when it is
    mounted, registers two [window] listeners, and starts timers with
    [setTimeout].  None of this is pure, so the embedding threads an explicit
    [World] through every handler: the clock, the origin's [localStorage], the
    timer queue of the page, the mounted component instance (if any), the
    continuations suspended at [await], and a log of the observable effects
    ([alert], [console.log], [preventDefault], [prompt]).

    Times are milliseconds, as in the argument of [setTimeout]. *)

From stdpp Require Import base option list gmap strings.
From Stdlib Require Import NArith Lia.

Open Scope N_scope.

(** ** Data *)

(** A [beforeinstallprompt] event object.  The component never looks inside
    it; it only stores it, calls [preventDefault] and [prompt] on it and awaits
    its [userChoice].  It is identified by a number. *)
Definition Signal := nat.

(** What a timer callback does.  The first callback is the arrow function of
    lines 31-33 and closes over the [setShowPrompt] of the instance that made
    it; the second is the one of lines 92-94. *)
Inductive TimerAction :=
| ShowPrompt (inst : nat)
| ClearDismissed.

Record Timer := mkTimer { due : N; action : TimerAction }.

(** What the outside can observe besides the banner and the store. *)
Inductive Effect :=
| PreventDefault (e : Signal)
| Prompt (e : Signal)
| ConsoleLog (msg : string)
| Alert (msg : string).

(** One mounted instance of the component: its React state (lines 13-14) and
    the two constants its effect closure captured (lines 18-19). *)
Record Instance := mkInstance {
  inst_id : nat;
  showPrompt : bool;
  deferredPrompt : option Signal;
  promptDismissed : option string;
  alreadyInstalled : option string
}.

Record World := mkWorld {
  now : N;
  localStorage : gmap string string;
  timers : list Timer;
  comp : option Instance;
  next_id : nat;
  awaiting : list (nat * Signal);
  log : list Effect
}.

(** The platform and the user, as seen by the page. *)
Inductive Event :=
| EvMount (standalone : bool)
| EvUnmount
| EvReload
| EvBeforeInstallPrompt (e : Signal)
| EvAppInstalled
| EvInstallClick
| EvDismissClick
| EvUserChoice (e : Signal) (outcome : string)
| EvElapse (d : N).

(** ** JavaScript and browser primitives *)

(** [!v] is false exactly for a non-empty string; [getItem] yields [null] for
    an absent key, and [null] and the empty string are falsy. *)
Definition truthy (v : option string) : bool :=
  match v with
  | Some s => negb (String.eqb s "")
  | None => false
  end.

Definition key_dismissed : string := "installPromptDismissed".
Definition key_installed : string := "appInstalled".

Definition show_delay : N := 1000.
Definition cooldown : N := 7 * 24 * 60 * 60 * 1000.

Definition nl : string := String (Ascii.ascii_of_nat 10) EmptyString.

Definition install_instructions : string :=
  ("To install:" +:+ nl +:+ nl +:+
   "Chrome/Edge: Click the install icon (⊕) in the address bar" +:+ nl +:+
   "Safari (iOS): Tap Share → Add to Home Screen" +:+ nl +:+
   "Android: Tap menu → Install App")%string.

Definition set_store (m : gmap string string) (w : World) : World :=
  mkWorld (now w) m (timers w) (comp w) (next_id w) (awaiting w) (log w).

Definition set_timers (ts : list Timer) (w : World) : World :=
  mkWorld (now w) (localStorage w) ts (comp w) (next_id w) (awaiting w) (log w).

Definition set_comp (c : option Instance) (w : World) : World :=
  mkWorld (now w) (localStorage w) (timers w) c (next_id w) (awaiting w) (log w).

Definition set_awaiting (a : list (nat * Signal)) (w : World) : World :=
  mkWorld (now w) (localStorage w) (timers w) (comp w) (next_id w) a (log w).

Definition emit (x : Effect) (w : World) : World :=
  mkWorld (now w) (localStorage w) (timers w) (comp w) (next_id w)
          (awaiting w) (log w ++ [x]).

Definition getItem (k : string) (w : World) : option string :=
  localStorage w !! k.

Definition setItem (k v : string) (w : World) : World :=
  set_store (<[k := v]> (localStorage w)) w.

Definition removeItem (k : string) (w : World) : World :=
  set_store (delete k (localStorage w)) w.

(** The timer queue is kept in firing order: a new timer goes behind every
    timer that is due no later than it. *)
Fixpoint insert_timer (t : Timer) (ts : list Timer) : list Timer :=
  match ts with
  | [] => [t]
  | u :: us => if due u <=? due t then u :: insert_timer t us else t :: u :: us
  end.

Definition setTimeout (a : TimerAction) (delay : N) (w : World) : World :=
  set_timers (insert_timer (mkTimer (now w + delay) a) (timers w)) w.

(** A state setter belongs to the instance that created it.  React ignores a
    state update of a component that is no longer mounted. *)
Definition setShowPrompt (id : nat) (b : bool) (w : World) : World :=
  match comp w with
  | Some i =>
      if Nat.eqb (inst_id i) id
      then set_comp (Some (mkInstance (inst_id i) b (deferredPrompt i)
                                      (promptDismissed i) (alreadyInstalled i))) w
      else w
  | None => w
  end.

Definition setDeferredPrompt (id : nat) (d : option Signal) (w : World) : World :=
  match comp w with
  | Some i =>
      if Nat.eqb (inst_id i) id
      then set_comp (Some (mkInstance (inst_id i) (showPrompt i) d
                                      (promptDismissed i) (alreadyInstalled i))) w
      else w
  | None => w
  end.

(** ** The component *)

(** The effect of lines 16-56, run once when the component is mounted: read
    the two flags, register the listeners, then the display-mode check.  The
    reads come first, so the check's write is not seen by this instance. *)
Definition mount (standalone : bool) (w : World) : World :=
  let i := mkInstance (next_id w) false None
                      (getItem key_dismissed w) (getItem key_installed w) in
  let w1 := mkWorld (now w) (localStorage w) (timers w) (Some i)
                    (S (next_id w)) (awaiting w) (log w) in
  if standalone then setItem key_installed "true" w1 else w1.

(** The cleanup of lines 52-55: both listeners are removed, and nothing
    else.  No timer handle was kept, so no timer can be cleared here. *)
Definition unmount (w : World) : World := set_comp None w.

(** Leaving or reloading the page discards the JavaScript realm: component,
    timers and suspended continuations.  [localStorage] stays. *)
Definition reload (w : World) : World :=
  mkWorld (now w) (localStorage w) [] None (next_id w) [] (log w).

(** Lines 22-35. *)
Definition handleBeforeInstallPrompt (i : Instance) (e : Signal) (w : World) : World :=
  let w1 := emit (PreventDefault e) w in
  let w2 := setDeferredPrompt (inst_id i) (Some e) w1 in
  if negb (truthy (promptDismissed i)) && negb (truthy (alreadyInstalled i))
  then setTimeout (ShowPrompt (inst_id i)) show_delay w2
  else w2.

(** Lines 38-42. *)
Definition handleAppInstalled (i : Instance) (w : World) : World :=
  let w1 := emit (ConsoleLog "PWA was installed") w in
  let w2 := setItem key_installed "true" w1 in
  setShowPrompt (inst_id i) false w2.

(** Lines 58-73: the part of [handleInstallClick] that runs before the
    [await].  With a signal held it ends suspended on the signal's
    [userChoice]. *)
Definition handleInstallClick (i : Instance) (w : World) : World :=
  match deferredPrompt i with
  | None => emit (Alert install_instructions) w
  | Some e =>
      let w1 := emit (Prompt e) w in
      set_awaiting (awaiting w1 ++ [(inst_id i, e)]) w1
  end.

(** Lines 73-84: the part after the [await], for the instance [id] whose
    click is being resumed with the outcome the platform reported. *)
Definition handleInstallClick_resume (id : nat) (outcome : string) (w : World) : World :=
  let w1 :=
    if String.eqb outcome "accepted"
    then setItem key_installed "true"
           (emit (ConsoleLog "User accepted the install prompt") w)
    else emit (ConsoleLog "User dismissed the install prompt") w in
  let w2 := setDeferredPrompt id None w1 in
  setShowPrompt id false w2.

(** Lines 87-95. *)
Definition handleDismiss (i : Instance) (w : World) : World :=
  let w1 := setShowPrompt (inst_id i) false w in
  let w2 := setItem key_dismissed "true" w1 in
  setTimeout ClearDismissed cooldown w2.

(** ** The event loop *)

Definition run_timer (a : TimerAction) (w : World) : World :=
  match a with
  | ShowPrompt id => setShowPrompt id true w
  | ClearDismissed => removeItem key_dismissed w
  end.

Definition is_due (t : N) (x : Timer) : bool := due x <=? t.

(** Time passes: every timer that has become due fires, in queue order. *)
Definition elapse (d : N) (w : World) : World :=
  let t := now w + d in
  let fire := filter (fun x => is_due t x = true) (timers w) in
  let keep := filter (fun x => is_due t x = false) (timers w) in
  let w1 := mkWorld t (localStorage w) keep (comp w) (next_id w)
                    (awaiting w) (log w) in
  foldl (fun acc x => run_timer (action x) acc) w1 fire.

(** The promise [e.userChoice] settles: every continuation suspended on it
    resumes, oldest first. *)
Definition userChoice (e : Signal) (outcome : string) (w : World) : World :=
  let woken := filter (fun p => Nat.eqb (snd p) e = true) (awaiting w) in
  let rest := filter (fun p => Nat.eqb (snd p) e = false) (awaiting w) in
  foldl (fun acc p => handleInstallClick_resume (fst p) outcome acc)
        (set_awaiting rest w) woken.

(** What is on screen: line 97 renders nothing unless [showPrompt]. *)
Definition visible (w : World) : bool :=
  match comp w with
  | Some i => showPrompt i
  | None => false
  end.

Definition held (w : World) : option Signal :=
  match comp w with
  | Some i => deferredPrompt i
  | None => None
  end.

Definition installed (w : World) : bool := truthy (getItem key_installed w).
Definition dismissed (w : World) : bool := truthy (getItem key_dismissed w).

(** One event.  Platform events reach the handlers only while the listeners
    are registered; the two buttons exist only while the banner is rendered;
    a second instance is never mounted next to a live one. *)
Definition step (w : World) (ev : Event) : World :=
  match ev with
  | EvMount sa => match comp w with None => mount sa w | Some _ => w end
  | EvUnmount => unmount w
  | EvReload => reload w
  | EvBeforeInstallPrompt e =>
      match comp w with Some i => handleBeforeInstallPrompt i e w | None => w end
  | EvAppInstalled =>
      match comp w with Some i => handleAppInstalled i w | None => w end
  | EvInstallClick =>
      match comp w with
      | Some i => if showPrompt i then handleInstallClick i w else w
      | None => w
      end
  | EvDismissClick =>
      match comp w with
      | Some i => if showPrompt i then handleDismiss i w else w
      | None => w
      end
  | EvUserChoice e o => userChoice e o w
  | EvElapse d => elapse d w
  end.

Definition run (evs : list Event) (w : World) : World := foldl step w evs.

(** A freshly loaded page at time [t] over the store [m]. *)
Definition boot (t : N) (m : gmap string string) : World :=
  mkWorld t m [] None 0 [] [].

Definition reachable (w : World) : Prop :=
  exists t m evs, w = run evs (boot t m).

(** ** Derived notions used in the statements *)

(** Is [x] a show timer of instance [id]; is it a cooldown timer. *)
Definition shows (id : nat) (x : Timer) : bool :=
  match action x with ShowPrompt j => Nat.eqb j id | ClearDismissed => false end.

Definition clears (x : Timer) : bool :=
  match action x with ShowPrompt _ => false | ClearDismissed => true end.

(** The two folds of [elapse] and [userChoice], by name. *)
Definition fire_all (l : list Timer) (w : World) : World :=
  foldl (fun acc x => run_timer (action x) acc) w l.

Definition resume_all (o : string) (l : list (nat * Signal)) (w : World) : World :=
  foldl (fun acc p => handleInstallClick_resume (fst p) o acc) w l.

(** What lines 75-80 log and write, as a function of the outcome. *)
Definition outcome_msg (o : string) : string :=
  if String.eqb o "accepted" then "User accepted the install prompt"%string
  else "User dismissed the install prompt"%string.

Definition outcome_store (o : string) (m : gmap string string) : gmap string string :=
  if String.eqb o "accepted" then <[key_installed := "true"%string]> m else m.

(** The test of line 30, and the timer that line 31 queues. *)
Definition eligible (i : Instance) : bool :=
  negb (truthy (promptDismissed i)) && negb (truthy (alreadyInstalled i)).

Definition show_timer (i : Instance) (w : World) : Timer :=
  mkTimer (now w + show_delay) (ShowPrompt (inst_id i)).

(** Instance numbers are handed out in order, so a show timer never names an
    instance that does not exist yet. *)
Definition fresh_ids (w : World) : Prop :=
  (forall t id, t ∈ timers w -> action t = ShowPrompt id -> (id < next_id w)%nat) /\
  (forall i, comp w = Some i -> (inst_id i < next_id w)%nat).

(** An instance that found one of the flags set when it was mounted. *)
Definition blocked (i : Instance) : bool :=
  truthy (promptDismissed i) || truthy (alreadyInstalled i).

(** Such an instance is hidden and has no show timer of its own. *)
Definition blocked_hidden (w : World) : Prop :=
  forall i, comp w = Some i -> blocked i = true ->
    showPrompt i = false /\
    forall t, t ∈ timers w -> action t <> ShowPrompt (inst_id i).

Definition Inv (w : World) : Prop := fresh_ids w /\ blocked_hidden w.

(** The constants captured at mount, with the instance's number. *)
Definition same_snap (i i' : Instance) : Prop :=
  inst_id i' = inst_id i /\
  promptDismissed i' = promptDismissed i /\
  alreadyInstalled i' = alreadyInstalled i.

(** Events that make an instance, and events that end one. *)
Definition is_mount (ev : Event) : bool :=
  match ev with EvMount _ => true | _ => false end.

Definition ends_instance (ev : Event) : bool :=
  match ev with EvUnmount | EvReload => true | _ => false end.

(** Events that leave a click suspended on [e.userChoice] where it is: the
    instance stays mounted and the promise does not settle. *)
Definition is_choice (e : Signal) (ev : Event) : bool :=
  match ev with EvUserChoice e' _ => Nat.eqb e' e | _ => false end.

Definition leaves_pending (e : Signal) (ev : Event) : bool :=
  negb (ends_instance ev) && negb (is_choice e ev).

(** Every instance, now and later, has seen [installed] set. *)
Definition knows_installed (w : World) : Prop :=
  installed w = true /\
  forall i, comp w = Some i -> truthy (alreadyInstalled i) = true.

(** The mounted instance has seen [dismissed] set. *)
Definition knows_dismissed (w : World) : Prop :=
  forall i, comp w = Some i -> truthy (promptDismissed i) = true.

(** Kinds of events, for statements about runs that lack them: a signal,
    a click on one of the two dismiss controls, and the three events whose
    handlers contain a write of [appInstalled] (lines 40, 49 and 77). *)
Definition is_signal (ev : Event) : bool :=
  match ev with EvBeforeInstallPrompt _ => true | _ => false end.

Definition is_dismiss_click (ev : Event) : bool :=
  match ev with EvDismissClick => true | _ => false end.

Definition may_write_installed (ev : Event) : bool :=
  match ev with
  | EvMount sa => sa
  | EvAppInstalled => true
  | EvUserChoice _ o => String.eqb o "accepted"
  | _ => false
  end.

(** The mounted instance is hidden and no show timer of its own is queued. *)
Definition unscheduled (w : World) : Prop :=
  forall i, comp w = Some i ->
    showPrompt i = false /\
    forall t, t ∈ timers w -> action t <> ShowPrompt (inst_id i).

(** The flag [dismissed] is set, no timer is left to remove it, and the
    mounted instance has read it. *)
Definition dismissed_for_good (w : World) : Prop :=
  getItem key_dismissed w = Some "true"%string /\
  existsb clears (timers w) = false /\
  knows_dismissed w.

(** ** Basic facts about the primitives *)

Lemma setShowPrompt_own i b w :
  comp w = Some i ->
  setShowPrompt (inst_id i) b w =
  set_comp (Some (mkInstance (inst_id i) b (deferredPrompt i)
                             (promptDismissed i) (alreadyInstalled i))) w.
Proof. intros H. unfold setShowPrompt. rewrite H, Nat.eqb_refl. reflexivity. Qed.

Lemma setDeferredPrompt_own i d w :
  comp w = Some i ->
  setDeferredPrompt (inst_id i) d w =
  set_comp (Some (mkInstance (inst_id i) (showPrompt i) d
                             (promptDismissed i) (alreadyInstalled i))) w.
Proof. intros H. unfold setDeferredPrompt. rewrite H, Nat.eqb_refl. reflexivity. Qed.

Lemma elem_of_insert_timer t u ts : u ∈ insert_timer t ts <-> u = t \/ u ∈ ts.
Proof.
  induction ts as [|v vs IH]; simpl.
  - rewrite list_elem_of_singleton, elem_of_nil. tauto.
  - destruct (due v <=? due t); rewrite !elem_of_cons; [rewrite IH|]; tauto.
Qed.

(** ** Firing a batch of timers *)

(** The net effect of a batch: the store loses [dismissed] if some cooldown
    timer is in the batch, the mounted instance is shown if one of its own
    show timers is, and nothing else changes. *)
Lemma fire_all_spec l w :
  fire_all l w =
  mkWorld (now w)
          (if existsb clears l then delete key_dismissed (localStorage w)
           else localStorage w)
          (timers w)
          (match comp w with
           | Some i => Some (mkInstance (inst_id i)
                               (showPrompt i || existsb (shows (inst_id i)) l)
                               (deferredPrompt i) (promptDismissed i)
                               (alreadyInstalled i))
           | None => None
           end)
          (next_id w) (awaiting w) (log w).
Proof.
  revert w. induction l as [|x l IH]; intros w.
  - simpl. destruct w as [? ? ? [[? b ? ? ?]|] ? ? ?]; simpl; [|done].
    by rewrite orb_false_r.
  - unfold fire_all in *. simpl. rewrite IH. clear IH.
    destruct x as [d [j|]]; unfold shows, clears; simpl.
    + unfold setShowPrompt.
      destruct w as [? ? ? [[id b ? ? ?]|] ? ? ?]; simpl; [|done].
      rewrite (Nat.eqb_sym j id).
      destruct (Nat.eqb id j) eqn:E; simpl; [|done].
      by rewrite orb_true_r.
    + destruct w as [? m ? c ? ? ?]; simpl.
      destruct (existsb _ l); [|done].
      by rewrite delete_delete_eq.
Qed.

Lemma elapse_spec d w :
  elapse d w =
  fire_all (filter (fun x => is_due (now w + d) x = true) (timers w))
    (mkWorld (now w + d) (localStorage w)
       (filter (fun x => is_due (now w + d) x = false) (timers w))
       (comp w) (next_id w) (awaiting w) (log w)).
Proof. reflexivity. Qed.

(** ** Resuming suspended clicks *)

Lemma resume_spec id o w :
  handleInstallClick_resume id o w =
  mkWorld (now w) (outcome_store o (localStorage w)) (timers w)
          (match comp w with
           | Some i =>
               Some (if Nat.eqb (inst_id i) id
                     then mkInstance (inst_id i) false None
                                     (promptDismissed i) (alreadyInstalled i)
                     else i)
           | None => None
           end)
          (next_id w) (awaiting w) (log w ++ [ConsoleLog (outcome_msg o)]).
Proof.
  unfold handleInstallClick_resume, outcome_store, outcome_msg.
  destruct w as [? ? ? [[j ? ? ? ?]|] ? ? ?];
    destruct (String.eqb o "accepted"); unfold setDeferredPrompt, setShowPrompt;
    simpl; try reflexivity;
    destruct (Nat.eqb j id) eqn:E; simpl; rewrite ?E; reflexivity.
Qed.

Lemma resume_all_spec o l w :
  resume_all o l w =
  mkWorld (now w)
          (match l with [] => localStorage w | _ => outcome_store o (localStorage w) end)
          (timers w)
          (match comp w with
           | Some i =>
               Some (if existsb (fun p => Nat.eqb (inst_id i) (fst p)) l
                     then mkInstance (inst_id i) false None
                                     (promptDismissed i) (alreadyInstalled i)
                     else i)
           | None => None
           end)
          (next_id w) (awaiting w)
          (log w ++ map (fun _ => ConsoleLog (outcome_msg o)) l).
Proof.
  revert w. induction l as [|[id e] l IH]; intros w.
  - simpl. rewrite app_nil_r. by destruct w as [? ? ? [?|] ? ? ?].
  - unfold resume_all in *. simpl foldl. rewrite IH, resume_spec. clear IH.
    simpl. rewrite <- app_assoc. simpl. f_equal.
    + destruct l; [done|]. unfold outcome_store.
      destruct (String.eqb o "accepted"); [|done]. by rewrite insert_insert_eq.
    + destruct (comp w) as [[j b dp pd ai]|]; [|done]. simpl.
      destruct (Nat.eqb j id) eqn:E; simpl.
      * by destruct (existsb _ l).
      * done.
Qed.

Lemma userChoice_spec e o w :
  userChoice e o w =
  resume_all o (filter (fun p => Nat.eqb (snd p) e = true) (awaiting w))
    (set_awaiting (filter (fun p => Nat.eqb (snd p) e = false) (awaiting w)) w).
Proof. reflexivity. Qed.

(** ** The handlers, field by field *)

Lemma handleBeforeInstallPrompt_spec i e w :
  comp w = Some i ->
  handleBeforeInstallPrompt i e w =
  mkWorld (now w) (localStorage w)
          (if eligible i then insert_timer (show_timer i w) (timers w) else timers w)
          (Some (mkInstance (inst_id i) (showPrompt i) (Some e)
                            (promptDismissed i) (alreadyInstalled i)))
          (next_id w) (awaiting w) (log w ++ [PreventDefault e]).
Proof.
  intros Hc. unfold handleBeforeInstallPrompt, eligible.
  rewrite (setDeferredPrompt_own i) by exact Hc.
  destruct (_ && _); reflexivity.
Qed.

Lemma handleAppInstalled_spec i w :
  comp w = Some i ->
  handleAppInstalled i w =
  mkWorld (now w) (<[key_installed := "true"%string]> (localStorage w)) (timers w)
          (Some (mkInstance (inst_id i) false (deferredPrompt i)
                            (promptDismissed i) (alreadyInstalled i)))
          (next_id w) (awaiting w) (log w ++ [ConsoleLog "PWA was installed"]).
Proof.
  intros Hc. unfold handleAppInstalled.
  rewrite (setShowPrompt_own i) by exact Hc. reflexivity.
Qed.

Lemma handleDismiss_spec i w :
  comp w = Some i ->
  handleDismiss i w =
  mkWorld (now w) (<[key_dismissed := "true"%string]> (localStorage w))
          (insert_timer (mkTimer (now w + cooldown) ClearDismissed) (timers w))
          (Some (mkInstance (inst_id i) false (deferredPrompt i)
                            (promptDismissed i) (alreadyInstalled i)))
          (next_id w) (awaiting w) (log w).
Proof.
  intros Hc. unfold handleDismiss.
  rewrite (setShowPrompt_own i) by exact Hc. reflexivity.
Qed.

Lemma handleInstallClick_frame i w :
  let w' := handleInstallClick i w in
  now w' = now w /\ localStorage w' = localStorage w /\ timers w' = timers w /\
  comp w' = comp w /\ next_id w' = next_id w.
Proof. unfold handleInstallClick. destruct (deferredPrompt i); simpl; auto. Qed.

Lemma existsb_false {A} (f : A -> bool) (l : list A) :
  existsb f l = false <-> forall x, x ∈ l -> f x = false.
Proof.
  induction l as [|a l IH]; simpl.
  - split; [intros _ x Hx; by apply elem_of_nil in Hx | done].
  - rewrite orb_false_iff, IH. split.
    + intros [Ha Hl] x Hx. apply elem_of_cons in Hx as [->|Hx]; auto.
    + intros H. split; [apply H; left | intros x Hx; apply H; by right].
Qed.

Lemma existsb_true {A} (f : A -> bool) (l : list A) (x : A) :
  x ∈ l -> f x = true -> existsb f l = true.
Proof.
  intros Hx Hf. destruct (existsb f l) eqn:E; [done|].
  rewrite existsb_false in E. rewrite (E x Hx) in Hf. discriminate.
Qed.

Lemma shows_true id x : shows id x = true <-> action x = ShowPrompt id.
Proof.
  unfold shows. destruct (action x) as [j|]; [|split; discriminate].
  rewrite Nat.eqb_eq. split; congruence.
Qed.

(** ** Invariants of the event loop *)

Lemma blocked_mk i id b d :
  blocked (mkInstance id b d (promptDismissed i) (alreadyInstalled i)) = blocked i.
Proof. reflexivity. Qed.

Lemma eligible_blocked i : eligible i = negb (blocked i).
Proof. unfold eligible, blocked. by rewrite negb_orb. Qed.

Lemma Inv_boot t m : Inv (boot t m).
Proof.
  split; [split|]; simpl.
  - intros x id Hx. by apply elem_of_nil in Hx.
  - discriminate.
  - intros i Hi. discriminate.
Qed.

Lemma Inv_mount sa w : comp w = None -> Inv w -> Inv (mount sa w).
Proof.
  intros Hc [[Ht Hi] Hb]. unfold mount.
  assert (forall w1, timers w1 = timers w ->
            comp w1 = Some (mkInstance (next_id w) false None
                              (getItem key_dismissed w) (getItem key_installed w)) ->
            next_id w1 = S (next_id w) -> Inv w1) as Hgen.
  { intros w1 Et Ec En. split; [split|].
    - intros x id Hx Ha. rewrite Et in Hx. rewrite En.
      specialize (Ht x id Hx Ha). lia.
    - intros i Hi'. rewrite Ec in Hi'. injection Hi' as <-. rewrite En. simpl. lia.
    - intros i Hi' _. rewrite Ec in Hi'. injection Hi' as <-. simpl.
      split; [done|]. intros x Hx Ha. rewrite Et in Hx.
      specialize (Ht x _ Hx Ha). lia. }
  destruct sa; apply Hgen; reflexivity.
Qed.

Lemma Inv_step w ev : Inv w -> Inv (step w ev).
Proof.
  intros HI. pose proof HI as [[Ht Hi] Hb]. unfold blocked_hidden in Hb.
  destruct ev as [sa| | |e| | | |e o|d]; simpl.
  - destruct (comp w) eqn:Hc; [exact HI | by apply Inv_mount].
  - split; [split|]; simpl.
    + exact Ht.
    + discriminate.
    + intros i; discriminate.
  - split; [split|]; simpl.
    + intros x id Hx. by apply elem_of_nil in Hx.
    + discriminate.
    + intros i; discriminate.
  - destruct (comp w) as [i|] eqn:Hc; [|exact HI].
    rewrite handleBeforeInstallPrompt_spec by exact Hc.
    specialize (Hi i eq_refl). specialize (Hb i eq_refl).
    rewrite eligible_blocked.
    split; [split|]; simpl.
    + intros x id Hx Ha. destruct (blocked i); simpl in Hx; [eauto|].
      apply elem_of_insert_timer in Hx as [->|Hx]; [|eauto].
      simpl in Ha. injection Ha as <-. exact Hi.
    + intros i' [= <-]. exact Hi.
    + intros i' [= <-]. simpl. rewrite blocked_mk. simpl. intros Hbl. rewrite Hbl. simpl. auto.
  - destruct (comp w) as [i|] eqn:Hc; [|exact HI].
    rewrite handleAppInstalled_spec by exact Hc.
    specialize (Hi i eq_refl). specialize (Hb i eq_refl).
    split; [split|]; simpl.
    + exact Ht.
    + intros i' [= <-]. exact Hi.
    + intros i' [= <-]. rewrite blocked_mk. simpl.
      intros Hbl. split; [done|]. apply Hb, Hbl.
  - destruct (comp w) as [i|] eqn:Hc; [|exact HI].
    destruct (showPrompt i); [|exact HI].
    destruct (handleInstallClick_frame i w) as (_ & _ & Et & Ec & En).
    split; [split|].
    + intros x id. rewrite Et, En. apply Ht.
    + intros i'. rewrite Ec, En, Hc. intros [= <-]. by apply Hi.
    + intros i'. rewrite Ec, Et, Hc. intros [= <-]. by apply Hb.
  - destruct (comp w) as [i|] eqn:Hc; [|exact HI].
    destruct (showPrompt i); [|exact HI].
    rewrite handleDismiss_spec by exact Hc.
    specialize (Hi i eq_refl). specialize (Hb i eq_refl).
    split; [split|]; simpl.
    + intros x id Hx Ha. apply elem_of_insert_timer in Hx as [->|Hx]; [|eauto].
      discriminate.
    + intros i' [= <-]. exact Hi.
    + intros i' [= <-]. rewrite blocked_mk. simpl.
      intros Hbl. split; [done|]. intros x Hx.
      apply elem_of_insert_timer in Hx as [->|Hx]; [discriminate|].
      by apply Hb.
  - rewrite userChoice_spec, resume_all_spec.
    split; [split|]; simpl.
    + exact Ht.
    + intros i'. destruct (comp w) as [i|] eqn:Hc; [|discriminate].
      specialize (Hi i eq_refl). destruct (existsb _ _); intros [= <-]; exact Hi.
    + intros i'. destruct (comp w) as [i|] eqn:Hc; [|discriminate].
      specialize (Hb i eq_refl).
      destruct (existsb _ _); intros [= <-]; [|exact Hb].
      rewrite blocked_mk. simpl.
      intros Hbl. split; [done|]. apply Hb, Hbl.
  - rewrite elapse_spec, fire_all_spec.
    split; [split|]; simpl.
    + intros x id Hx. apply list_elem_of_filter in Hx as [_ Hx]. eauto.
    + intros i'. destruct (comp w) as [i|] eqn:Hc; [|discriminate].
      intros [= <-]. simpl. exact (Hi i eq_refl).
    + intros i'. destruct (comp w) as [i|] eqn:Hc; [|discriminate].
      intros [= <-]. rewrite blocked_mk. simpl.
      intros Hbl. destruct (Hb i eq_refl Hbl) as [Hs Hn]. split.
      * rewrite Hs. simpl. apply existsb_false. intros x Hx.
        apply list_elem_of_filter in Hx as [_ Hx].
        destruct (shows (inst_id i) x) eqn:E; [|done].
        apply shows_true in E. by destruct (Hn x Hx).
      * intros x Hx. apply list_elem_of_filter in Hx as [_ Hx]. by apply Hn.
Qed.

Lemma Inv_run evs w : Inv w -> Inv (run evs w).
Proof.
  revert w. induction evs as [|ev evs IH]; intros w HI; [exact HI|].
  apply IH, Inv_step, HI.
Qed.

Lemma Inv_reachable w : reachable w -> Inv w.
Proof. intros (t & m & evs & ->). apply Inv_run, Inv_boot. Qed.

Lemma run_app evs1 evs2 w : run (evs1 ++ evs2) w = run evs2 (run evs1 w).
Proof. apply foldl_app. Qed.

Lemma reachable_run evs w : reachable w -> reachable (run evs w).
Proof.
  intros (t & m & evs0 & ->). exists t, m, (evs0 ++ evs). by rewrite run_app.
Qed.

(** ** What an instance keeps for life *)

Lemma same_snap_refl i : same_snap i i.
Proof. by repeat split. Qed.

Lemma same_snap_mk i b d :
  same_snap i (mkInstance (inst_id i) b d (promptDismissed i) (alreadyInstalled i)).
Proof. by repeat split. Qed.

(** No event but a mount makes an instance, and a mounted instance never
    changes what it captured. *)
Lemma step_comp w ev i' :
  comp (step w ev) = Some i' ->
  (exists i, comp w = Some i /\ same_snap i i') \/
  (comp w = None /\ is_mount ev = true /\
   promptDismissed i' = getItem key_dismissed w /\
   alreadyInstalled i' = getItem key_installed w).
Proof.
  destruct ev as [sa| | |e| | | |e o|d]; simpl.
  - destruct (comp w) as [i|] eqn:Hc.
    + intros H. left. exists i. rewrite Hc in H. injection H as <-.
      split; [done | apply same_snap_refl].
    + intros H. right. split; [done|]. split; [done|].
      unfold mount in H. destruct sa; simpl in H; injection H as <-; done.
  - discriminate.
  - discriminate.
  - destruct (comp w) as [i|] eqn:Hc; [|by rewrite Hc].
    rewrite handleBeforeInstallPrompt_spec by exact Hc. simpl.
    intros [= <-]. left. exists i. split; [done | apply same_snap_mk].
  - destruct (comp w) as [i|] eqn:Hc; [|by rewrite Hc].
    rewrite handleAppInstalled_spec by exact Hc. simpl.
    intros [= <-]. left. exists i. split; [done | apply same_snap_mk].
  - destruct (comp w) as [i|] eqn:Hc; [|by rewrite Hc].
    intros H. left. exists i. split; [done|].
    destruct (showPrompt i).
    + destruct (handleInstallClick_frame i w) as (_ & _ & _ & Ec & _).
      rewrite Ec, Hc in H. injection H as <-. apply same_snap_refl.
    + rewrite Hc in H. injection H as <-. apply same_snap_refl.
  - destruct (comp w) as [i|] eqn:Hc; [|by rewrite Hc].
    destruct (showPrompt i) eqn:Hs.
    + rewrite handleDismiss_spec by exact Hc. simpl.
      intros [= <-]. left. exists i. split; [done | apply same_snap_mk].
    + rewrite Hc. intros [= <-]. left. exists i.
      split; [done | apply same_snap_refl].
  - rewrite userChoice_spec, resume_all_spec. simpl.
    destruct (comp w) as [i|] eqn:Hc; [|discriminate].
    intros H. left. exists i. split; [done|].
    destruct (existsb _ _); injection H as <-;
      [apply same_snap_mk | apply same_snap_refl].
  - rewrite elapse_spec, fire_all_spec. simpl.
    destruct (comp w) as [i|] eqn:Hc; [|discriminate].
    intros [= <-]. left. exists i. split; [done | apply same_snap_mk].
Qed.

(** Unless it is unmounted or the page goes away, the instance stays. *)
Lemma step_keeps w ev i :
  comp w = Some i -> ends_instance ev = false ->
  exists i', comp (step w ev) = Some i' /\ same_snap i i'.
Proof.
  intros Hc Hev.
  destruct (comp (step w ev)) as [i'|] eqn:E.
  - exists i'. split; [done|].
    destruct (step_comp w ev i' E) as [(i0 & Hc0 & Hs)|(Hn & _)];
      [|congruence].
    rewrite Hc in Hc0. by injection Hc0 as <-.
  - exfalso. destruct ev as [sa| | |e| | | |e o|d]; simpl in *;
      try discriminate; rewrite ?Hc in E.
    + discriminate.
    + by rewrite handleBeforeInstallPrompt_spec in E.
    + by rewrite handleAppInstalled_spec in E.
    + destruct (showPrompt i); [|by rewrite Hc in E].
      destruct (handleInstallClick_frame i w) as (_ & _ & _ & Ec & _).
      rewrite Ec, Hc in E. discriminate.
    + destruct (showPrompt i); [|by rewrite Hc in E].
      by rewrite handleDismiss_spec in E.
    + rewrite userChoice_spec, resume_all_spec in E. simpl in E.
      rewrite Hc in E. discriminate.
    + rewrite elapse_spec, fire_all_spec in E. simpl in E.
      rewrite Hc in E. discriminate.
Qed.

Lemma run_keeps evs w i :
  comp w = Some i -> forallb (fun ev => negb (ends_instance ev)) evs = true ->
  exists i', comp (run evs w) = Some i' /\ same_snap i i'.
Proof.
  revert w i. induction evs as [|ev evs IH]; intros w i Hc Hevs.
  - exists i. split; [done | apply same_snap_refl].
  - simpl in Hevs. apply andb_true_iff in Hevs as [Hev Hevs].
    apply negb_true_iff in Hev.
    destruct (step_keeps w ev i Hc Hev) as (i1 & Hc1 & (A1 & B1 & C1)).
    destruct (IH (step w ev) i1 Hc1 Hevs) as (i2 & Hc2 & (A2 & B2 & C2)).
    exists i2. split; [exact Hc2|]. repeat split; congruence.
Qed.

(** The component only ever writes ["true"] under [appInstalled] and never
    removes it. *)
Lemma installed_step w ev : installed w = true -> installed (step w ev) = true.
Proof.
  unfold installed, getItem. intros H.
  assert (forall m : gmap string string,
            truthy (<[key_installed := "true"%string]> m !! key_installed) = true)
    as Hset by (intros m; by rewrite lookup_insert_eq).
  destruct ev as [sa| | |e| | | |e o|d]; simpl; try exact H.
  - destruct (comp w); [exact H|]. unfold mount.
    destruct sa; simpl; [apply Hset | exact H].
  - destruct (comp w) as [i|] eqn:Hc; [|exact H].
    by rewrite handleBeforeInstallPrompt_spec.
  - destruct (comp w) as [i|] eqn:Hc; [|exact H].
    rewrite handleAppInstalled_spec by exact Hc. apply Hset.
  - destruct (comp w) as [i|] eqn:Hc; [|exact H].
    destruct (showPrompt i); [|exact H].
    destruct (handleInstallClick_frame i w) as (_ & Es & _). by rewrite Es.
  - destruct (comp w) as [i|] eqn:Hc; [|exact H].
    destruct (showPrompt i); [|exact H].
    rewrite handleDismiss_spec by exact Hc. simpl.
    by rewrite lookup_insert_ne.
  - rewrite userChoice_spec, resume_all_spec. simpl.
    destruct (filter _ _); [exact H|]. unfold outcome_store.
    destruct (String.eqb o "accepted"); [apply Hset | exact H].
  - rewrite elapse_spec, fire_all_spec. simpl.
    destruct (existsb _ _); [|exact H]. by rewrite lookup_delete_ne.
Qed.

Lemma hidden_if_blocked w :
  Inv w -> (forall i, comp w = Some i -> blocked i = true) -> visible w = false.
Proof.
  intros [_ Hb] H. unfold visible.
  destruct (comp w) as [i|] eqn:Hc; [|done].
  by destruct (Hb i Hc (H i eq_refl)).
Qed.

Lemma knows_installed_step w ev : knows_installed w -> knows_installed (step w ev).
Proof.
  intros [Hs Hi]. split; [by apply installed_step|].
  intros i' Hc'.
  destruct (step_comp w ev i' Hc') as [(i & Hc & _ & _ & Ea)|(_ & _ & _ & Ea)];
    rewrite Ea; [by apply Hi | exact Hs].
Qed.

Lemma knows_installed_run evs w : knows_installed w -> knows_installed (run evs w).
Proof.
  revert w. induction evs as [|ev evs IH]; intros w H; [exact H|].
  apply IH, knows_installed_step, H.
Qed.

Lemma knows_dismissed_step w ev :
  is_mount ev = false -> knows_dismissed w -> knows_dismissed (step w ev).
Proof.
  intros Hev H i' Hc'.
  destruct (step_comp w ev i' Hc') as [(i & Hc & _ & Ed & _)|(_ & Hm & _)];
    [rewrite Ed; by apply H | congruence].
Qed.

Lemma knows_dismissed_run evs w :
  forallb (fun ev => negb (is_mount ev)) evs = true ->
  knows_dismissed w -> knows_dismissed (run evs w).
Proof.
  revert w. induction evs as [|ev evs IH]; intros w Hevs H; [exact H|].
  simpl in Hevs. apply andb_true_iff in Hevs as [Hev Hevs].
  apply negb_true_iff in Hev.
  apply IH; [exact Hevs | by apply knows_dismissed_step].
Qed.

Lemma filter_insert_timer_not (P : Timer -> bool) t ts :
  P t = false ->
  filter (fun x => P x = true) (insert_timer t ts) = filter (fun x => P x = true) ts.
Proof.
  intros Ht. induction ts as [|u us IH]; simpl.
  - rewrite filter_cons_False by (rewrite Ht; discriminate). reflexivity.
  - destruct (due u <=? due t).
    + destruct (P u) eqn:Eu.
      * rewrite !(filter_cons_True _ u) by exact Eu. by rewrite IH.
      * rewrite !(filter_cons_False _ u) by (rewrite Eu; discriminate). exact IH.
    + rewrite filter_cons_False by (rewrite Ht; discriminate). reflexivity.
Qed.

(** When time passes, the banner is on screen if it was, or if a show timer
    of the mounted instance has become due. *)
Lemma visible_elapse d w :
  visible (elapse d w) =
  match comp w with
  | Some i =>
      showPrompt i ||
      existsb (shows (inst_id i))
              (filter (fun x => is_due (now w + d) x = true) (timers w))
  | None => false
  end.
Proof.
  rewrite elapse_spec, fire_all_spec. unfold visible. simpl.
  by destruct (comp w).
Qed.

(** ** The banner and the [installed] flag *)




(** C2, as stated, fails.  With a show pending, the installed event leaves the
    timer in the queue, and when the timer fires the banner comes on screen. *)
Lemma installed_does_not_cancel_show :
  let w0 := run [EvMount false; EvBeforeInstallPrompt 1%nat; EvElapse 400] (boot 0 ∅) in
  let w1 := step w0 EvAppInstalled in
  timers w0 = [mkTimer 1000 (ShowPrompt 0)] /\ visible w0 = false /\
  timers w1 = [mkTimer 1000 (ShowPrompt 0)] /\ visible w1 = false /\
  visible (step w1 (EvElapse 600)) = true.
Proof. vm_compute. repeat split; reflexivity. Qed.

(** C2, amended.  When the installed event arrives while a show is pending,
    [installed] is written and the banner is hidden at that moment; the
    pending show is not cancelled: its timer, like every other, stays in the
    queue. *)
Theorem installed_while_show_pending (w : World) (i : Instance) (t : Timer) :
  comp w = Some i -> t ∈ timers w -> action t = ShowPrompt (inst_id i) ->
  let w' := step w EvAppInstalled in
  getItem key_installed w' = Some "true"%string /\ installed w' = true /\
  visible w' = false /\
  timers w' = timers w /\ t ∈ timers w'.
Proof.
  intros Hc Ht Ha. cbv zeta. simpl step. rewrite Hc.
  rewrite handleAppInstalled_spec by exact Hc.
  unfold installed, getItem, visible. simpl.
  rewrite lookup_insert_eq. repeat split; done.
Qed.

Lemma installed_while_show_pending_witness :
  let w := run [EvMount false; EvBeforeInstallPrompt 1%nat; EvElapse 400] (boot 0 ∅) in
  let w' := step w EvAppInstalled in
  installed w' = true /\ visible w' = false /\ timers w' = timers w.
Proof.
  cbv zeta.
  pose proof (installed_while_show_pending
                (run [EvMount false; EvBeforeInstallPrompt 1%nat; EvElapse 400] (boot 0 ∅))
                (mkInstance 0 false (Some 1%nat) None None)
                (mkTimer 1000 (ShowPrompt 0))) as H.
  cbv zeta in H.
  destruct H as (_ & H1 & H2 & H3 & _).
  - vm_compute. reflexivity.
  - vm_compute. apply list_elem_of_here.
  - reflexivity.
  - auto.
Defined.

(** ** The banner and the [dismissed] flag *)

(** C3 does not hold of the code.  The banner is dismissed one second after
    the page was opened; five seconds later a new signal arrives, and one
    more second later the banner is back, six seconds into the seven days,
    with the flag set in the store.  Line 30 tests the value read at mount,
    against the comment of line 29, "if not dismissed before". *)
Lemma dismissed_yet_shown :
  let w := run [EvMount false; EvBeforeInstallPrompt 1%nat; EvElapse 1000;
                EvDismissClick; EvElapse 5000;
                EvBeforeInstallPrompt 2%nat; EvElapse 1000] (boot 0 ∅) in
  dismissed w = true /\ now w - 1000 < cooldown /\ visible w = true.
Proof. vm_compute. repeat split; reflexivity. Qed.

(** Where the guard of line 30 does work: if [dismissed] is set when an
    instance is mounted, the banner is never shown for as long as that
    instance lives, whatever signals arrive and however much time passes. *)
Theorem dismissed_at_mount_never_shown (w : World) (sa : bool) (evs : list Event) :
  reachable w -> comp w = None -> dismissed w = true ->
  forallb (fun ev => negb (is_mount ev)) evs = true ->
  visible (run evs (mount sa w)) = false.
Proof.
  intros Hr Hc Hd Hevs.
  assert (knows_dismissed (mount sa w)) as Hk.
  { intros i Hi. unfold mount in Hi.
    destruct sa; simpl in Hi; injection Hi as <-; exact Hd. }
  apply hidden_if_blocked.
  - apply Inv_run, Inv_mount; [exact Hc | apply Inv_reachable, Hr].
  - intros i Hci. unfold blocked.
    by rewrite (knows_dismissed_run evs _ Hevs Hk i Hci).
Qed.

Lemma dismissed_at_mount_never_shown_witness :
  let w := boot 0 {[ key_dismissed := "true"%string ]} in
  visible (run [EvBeforeInstallPrompt 1%nat; EvElapse 1000] (mount false w)) = false.
Proof.
  cbv zeta. apply dismissed_at_mount_never_shown.
  - exists 0, {[ key_dismissed := "true"%string ]}, []. reflexivity.
  - reflexivity.
  - vm_compute. reflexivity.
  - reflexivity.
Defined.

(** C4 does not hold of the code.  The cooldown is a timer of the page, so it
    is lost with the page: after a dismissal and a reload, seven days later
    the flag is still set, and a new signal does not bring the banner back. *)
Theorem cooldown_lost_on_reload :
  let w := run [EvMount false; EvBeforeInstallPrompt 1%nat; EvElapse 1000;
                EvDismissClick; EvReload; EvMount false; EvElapse cooldown;
                EvBeforeInstallPrompt 2%nat; EvElapse 1000] (boot 0 ∅) in
  now w = 1000 + cooldown + 1000 /\
  getItem key_dismissed w = Some "true"%string /\ dismissed w = true /\
  timers w = [] /\ visible w = false.
Proof. vm_compute. repeat split; reflexivity. Qed.

(** Within one page the cooldown works as the comment on line 91 says: the
    flag is removed as soon as the timer of a dismissal is due. *)
Lemma cooldown_within_page w i d :
  comp w = Some i -> cooldown <= d ->
  getItem key_dismissed (elapse d (handleDismiss i w)) = None.
Proof.
  intros Hc Hd. rewrite handleDismiss_spec by exact Hc.
  rewrite elapse_spec, fire_all_spec. unfold getItem. simpl.
  rewrite (existsb_true clears _ (mkTimer (now w + cooldown) ClearDismissed)).
  - apply lookup_delete_eq.
  - apply list_elem_of_filter. split.
    + unfold is_due. simpl. apply N.leb_le. lia.
    + apply elem_of_insert_timer. by left.
  - reflexivity.
Qed.

(** ** Scheduling the banner *)

(** C9 does not hold of the code.  A banner is dismissed, the component is
    unmounted and mounted again, and seven days later the cooldown timer
    removes the flag.  When a signal now arrives both flags are unset in the
    store, yet nothing is scheduled and the banner does not appear: line 30
    tests the value the second instance read when it was mounted, against the
    comment of line 91, "Show again after 7 days". *)
Lemma flags_clear_but_not_scheduled :
  let w := run [EvMount false; EvBeforeInstallPrompt 1%nat; EvElapse 1000;
                EvDismissClick; EvUnmount; EvMount false; EvElapse cooldown]
               (boot 0 ∅) in
  let w' := step w (EvBeforeInstallPrompt 2%nat) in
  installed w = false /\ dismissed w = false /\ held w' = Some 2%nat /\
  timers w' = [] /\ visible (step w' (EvElapse 1000)) = false.
Proof. vm_compute. repeat split; reflexivity. Qed.

(** Where the schedule of lines 30-34 does work: when a signal arrives at an
    instance that found both flags unset when it was mounted, one show timer
    is queued, due exactly 1000 ms later: the banner is on screen once 1000
    ms have passed, and before that the new timer makes no difference. *)
Theorem show_scheduled_after_one_second (w : World) (i : Instance) (e : Signal) :
  comp w = Some i ->
  truthy (promptDismissed i) = false -> truthy (alreadyInstalled i) = false ->
  let w' := step w (EvBeforeInstallPrompt e) in
  timers w' = insert_timer (mkTimer (now w + 1000) (ShowPrompt (inst_id i))) (timers w) /\
  (forall d, 1000 <= d -> visible (step w' (EvElapse d)) = true) /\
  (forall d, d < 1000 -> visible (step w' (EvElapse d)) = visible (step w (EvElapse d))).
Proof.
  intros Hc Hd Hi. cbv zeta. simpl step. rewrite Hc.
  rewrite handleBeforeInstallPrompt_spec by exact Hc.
  unfold eligible. rewrite Hd, Hi. simpl.
  split; [reflexivity|]. split.
  - intros d Hle. rewrite visible_elapse. simpl.
    rewrite (existsb_true _ _ (show_timer i w)).
    + apply orb_true_r.
    + apply list_elem_of_filter. split.
      * unfold is_due, show_timer, show_delay. simpl. apply N.leb_le. lia.
      * apply elem_of_insert_timer. by left.
    + apply shows_true. reflexivity.
  - intros d Hlt. rewrite !visible_elapse. simpl. rewrite Hc.
    rewrite (filter_insert_timer_not (is_due (now w + d))); [reflexivity|].
    unfold is_due, show_timer, show_delay. simpl. apply N.leb_gt. lia.
Qed.

Lemma show_scheduled_after_one_second_witness :
  let w := mount false (boot 0 ∅) in
  let w' := step w (EvBeforeInstallPrompt 1%nat) in
  timers w' = [mkTimer 1000 (ShowPrompt 0)] /\
  visible (step w' (EvElapse 1000)) = true /\
  visible (step w' (EvElapse 999)) = false.
Proof.
  cbv zeta.
  destruct (show_scheduled_after_one_second (mount false (boot 0 ∅))
              (mkInstance 0 false None None None) 1%nat)
    as (H1 & H2 & H3); [reflexivity..|].
  cbv zeta in *. split; [exact H1|]. split.
  - apply H2. discriminate.
  - rewrite H3; reflexivity.
Defined.

(** C10.  Whether a signal schedules the banner is settled when the instance
    is mounted, by the two flags as they were just before the mount (before
    the display-mode check writes).  Nothing that happens while the instance
    stays mounted changes it, and neither does the content of the store at
    the time the signal arrives. *)
Theorem eligibility_fixed_at_mount
    (w : World) (sa : bool) (evs : list Event) (e : Signal) (m : gmap string string) :
  comp w = None ->
  forallb (fun ev => negb (ends_instance ev)) evs = true ->
  let w1 := run evs (mount sa w) in
  timers (step w1 (EvBeforeInstallPrompt e)) =
    (if negb (dismissed w) && negb (installed w)
     then insert_timer (mkTimer (now w1 + show_delay) (ShowPrompt (next_id w))) (timers w1)
     else timers w1) /\
  timers (step (set_store m w1) (EvBeforeInstallPrompt e)) =
  timers (step w1 (EvBeforeInstallPrompt e)).
Proof.
  intros Hc Hevs. cbv zeta.
  set (i0 := mkInstance (next_id w) false None
                        (getItem key_dismissed w) (getItem key_installed w)).
  assert (comp (mount sa w) = Some i0) as Hm.
  { unfold mount. by destruct sa. }
  destruct (run_keeps evs (mount sa w) i0 Hm Hevs) as (i' & Hc' & Ei & Ed & Ea).
  assert (eligible i' = negb (dismissed w) && negb (installed w)) as He.
  { unfold eligible. rewrite Ed, Ea. reflexivity. }
  simpl step. rewrite Hc'.
  rewrite !handleBeforeInstallPrompt_spec by (simpl; exact Hc').
  simpl. rewrite He. unfold show_timer. rewrite Ei. done.
Qed.

Lemma eligibility_fixed_at_mount_witness :
  let w1 := run [EvBeforeInstallPrompt 1%nat; EvElapse 1000; EvDismissClick;
                 EvAppInstalled] (mount true (boot 0 ∅)) in
  installed w1 = true /\ dismissed w1 = true /\
  timers (step w1 (EvBeforeInstallPrompt 2%nat)) =
    [mkTimer 2000 (ShowPrompt 0); mkTimer (1000 + cooldown) ClearDismissed].
Proof.
  cbv zeta. split; [vm_compute; reflexivity|]. split; [vm_compute; reflexivity|].
  destruct (eligibility_fixed_at_mount (boot 0 ∅) true
              [EvBeforeInstallPrompt 1%nat; EvElapse 1000; EvDismissClick;
               EvAppInstalled] 2%nat ∅) as [H _]; [reflexivity..|].
  cbv zeta in H. rewrite H. vm_compute. reflexivity.
Defined.

(** ** Teardown *)

(** C8, as stated, fails.  After a dismissal the component is unmounted; the
    cooldown timer is still in the queue, and seven days later it runs and
    removes the flag from the store. *)
Lemma timer_runs_after_teardown :
  let w := run [EvMount false; EvBeforeInstallPrompt 1%nat; EvBeforeInstallPrompt 2%nat;
                EvElapse 1000; EvDismissClick; EvBeforeInstallPrompt 3%nat;
                EvUnmount] (boot 0 ∅) in
  comp w = None /\
  timers w = [mkTimer 2000 (ShowPrompt 0); mkTimer (1000 + cooldown) ClearDismissed] /\
  getItem key_dismissed w = Some "true"%string /\
  getItem key_dismissed (step w (EvElapse cooldown)) = None.
Proof. vm_compute. repeat split; reflexivity. Qed.

(** C8, amended.  Teardown removes the two listeners and nothing else: the
    platform's events no longer reach the component, and both kinds of timer
    stay in the queue.  A show timer that fires later shows nothing, since
    its instance is gone; a cooldown timer that fires later still removes
    [dismissed] from the store. *)
Theorem teardown_removes_listeners_only (w : World) :
  let w' := step w EvUnmount in
  comp w' = None /\ timers w' = timers w /\
  localStorage w' = localStorage w /\ awaiting w' = awaiting w /\
  (forall e, step w' (EvBeforeInstallPrompt e) = w') /\
  step w' EvAppInstalled = w' /\
  (forall d, visible (step w' (EvElapse d)) = false) /\
  (forall d t, t ∈ timers w -> action t = ClearDismissed -> due t <= now w + d ->
     getItem key_dismissed (step w' (EvElapse d)) = None).
Proof.
  cbv zeta. simpl. repeat split.
  - intros d. by rewrite visible_elapse.
  - intros d t Ht Ha Hd. rewrite elapse_spec, fire_all_spec.
    unfold getItem. simpl.
    rewrite (existsb_true clears _ t).
    + apply lookup_delete_eq.
    + apply list_elem_of_filter. split; [|exact Ht].
      unfold is_due. by apply N.leb_le.
    + unfold clears. by rewrite Ha.
Qed.

Lemma teardown_removes_listeners_only_witness :
  let w := run [EvMount false; EvBeforeInstallPrompt 1%nat; EvElapse 1000;
                EvDismissClick] (boot 0 ∅) in
  getItem key_dismissed w = Some "true"%string /\
  getItem key_dismissed (run [EvUnmount; EvElapse cooldown] w) = None.
Proof.
  cbv zeta. split; [vm_compute; reflexivity|].
  destruct (teardown_removes_listeners_only
              (run [EvMount false; EvBeforeInstallPrompt 1%nat; EvElapse 1000;
                    EvDismissClick] (boot 0 ∅)))
    as (_ & _ & _ & _ & _ & _ & _ & H).
  apply (H cooldown (mkTimer (1000 + cooldown) ClearDismissed)).
  - vm_compute. apply list_elem_of_here.
  - reflexivity.
  - vm_compute. discriminate.
Defined.

(** ** The install button *)

Lemma outcome_store_accepted m :
  outcome_store "accepted" m !! key_installed = Some "true"%string.
Proof. unfold outcome_store. simpl. apply lookup_insert_eq. Qed.

Lemma outcome_store_other o m : o <> "accepted"%string -> outcome_store o m = m.
Proof.
  intros H. unfold outcome_store.
  destruct (String.eqb_spec o "accepted"); [contradiction|reflexivity].
Qed.

Lemma handleInstallClick_held i e w :
  deferredPrompt i = Some e ->
  handleInstallClick i w =
  mkWorld (now w) (localStorage w) (timers w) (comp w) (next_id w)
          (awaiting w ++ [(inst_id i, e)]) (log w ++ [Prompt e]).
Proof. intros Hd. unfold handleInstallClick. rewrite Hd. reflexivity. Qed.

(** A suspended click stays suspended until its promise settles or the page
    goes away. *)
Lemma step_awaiting w ev id e :
  (id, e) ∈ awaiting w -> leaves_pending e ev = true ->
  (id, e) ∈ awaiting (step w ev).
Proof.
  intros Hin Hev. apply andb_true_iff in Hev as [He Hch].
  destruct ev as [sa| | |e1| | | |e1 o|d]; simpl in *; try discriminate.
  - destruct (comp w); [exact Hin|]. unfold mount. by destruct sa.
  - destruct (comp w) as [i|] eqn:Hc; [|exact Hin].
    by rewrite handleBeforeInstallPrompt_spec.
  - destruct (comp w) as [i|] eqn:Hc; [|exact Hin].
    by rewrite handleAppInstalled_spec.
  - destruct (comp w) as [i|] eqn:Hc; [|exact Hin].
    destruct (showPrompt i); [|exact Hin].
    unfold handleInstallClick. destruct (deferredPrompt i); simpl; [|exact Hin].
    apply elem_of_app. by left.
  - destruct (comp w) as [i|] eqn:Hc; [|exact Hin].
    destruct (showPrompt i); [|exact Hin].
    by rewrite handleDismiss_spec.
  - rewrite userChoice_spec, resume_all_spec. simpl.
    apply list_elem_of_filter. split; [|exact Hin].
    simpl. rewrite Nat.eqb_sym. by apply negb_true_iff in Hch.
  - rewrite elapse_spec, fire_all_spec. exact Hin.
Qed.

Lemma run_awaiting evs w id e :
  (id, e) ∈ awaiting w -> forallb (leaves_pending e) evs = true ->
  (id, e) ∈ awaiting (run evs w).
Proof.
  revert w. induction evs as [|ev evs IH]; intros w Hin Hevs; [exact Hin|].
  simpl in Hevs. apply andb_true_iff in Hevs as [Hev Hevs].
  apply IH; [by apply step_awaiting | exact Hevs].
Qed.

Lemma leaves_pending_alive e evs :
  forallb (leaves_pending e) evs = true ->
  forallb (fun ev => negb (ends_instance ev)) evs = true.
Proof.
  induction evs as [|ev evs IH]; [done|]. simpl.
  intros H. apply andb_true_iff in H as [Hev Hevs].
  apply andb_true_iff in Hev as [-> _]. by apply IH.
Qed.

(** When the promise settles, a click of the mounted instance that is
    suspended on it resumes: the banner is hidden, the slot is emptied, and
    the store is written only on ["accepted"]. *)
Lemma choice_resumes w i e o :
  comp w = Some i -> (inst_id i, e) ∈ awaiting w ->
  let w2 := userChoice e o w in
  comp w2 = Some (mkInstance (inst_id i) false None
                             (promptDismissed i) (alreadyInstalled i)) /\
  localStorage w2 = outcome_store o (localStorage w) /\
  timers w2 = timers w.
Proof.
  intros Hc Hin. cbv zeta. rewrite userChoice_spec, resume_all_spec. simpl.
  assert ((inst_id i, e) ∈ filter (fun p => Nat.eqb (snd p) e = true) (awaiting w))
    as Hw.
  { apply list_elem_of_filter. split; [simpl; apply Nat.eqb_refl | exact Hin]. }
  rewrite Hc. split; [|split].
  - rewrite (existsb_true _ _ (inst_id i, e) Hw); [reflexivity|].
    simpl. apply Nat.eqb_refl.
  - destruct (filter _ (awaiting w)); [by apply elem_of_nil in Hw | reflexivity].
  - reflexivity.
Qed.

(** The whole of [handleInstallClick] with a signal held: the part before the
    [await], whatever happens while it is suspended, and the part after. *)
Lemma click_wait_choice i e o evs w :
  comp w = Some i -> deferredPrompt i = Some e ->
  forallb (leaves_pending e) evs = true ->
  let wm := run evs (handleInstallClick i w) in
  let w2 := userChoice e o wm in
  comp w2 = Some (mkInstance (inst_id i) false None
                             (promptDismissed i) (alreadyInstalled i)) /\
  localStorage w2 = outcome_store o (localStorage wm).
Proof.
  intros Hc Hd Hevs. cbv zeta.
  set (w1 := handleInstallClick i w).
  assert (comp w1 = Some i) as Hc1.
  { unfold w1. rewrite (handleInstallClick_held i e) by exact Hd. exact Hc. }
  assert ((inst_id i, e) ∈ awaiting w1) as Hin1.
  { unfold w1. rewrite (handleInstallClick_held i e) by exact Hd. simpl.
    apply elem_of_app. right. apply list_elem_of_here. }
  destruct (run_keeps evs w1 i Hc1 (leaves_pending_alive e evs Hevs))
    as (i' & Hc' & Ei & Ed & Ea).
  pose proof (run_awaiting evs w1 _ _ Hin1 Hevs) as Hin'.
  rewrite <- Ei in Hin'.
  destruct (choice_resumes (run evs w1) i' e o Hc' Hin') as (H1 & H2 & _).
  rewrite H1, H2, Ei, Ed, Ea. done.
Qed.

(** C7.  Pressing the install button while no signal is held only shows the
    fallback instructions: the alert is the one effect, and the store (hence
    [installed] and [dismissed]), the banner's visibility, the empty signal
    slot, the timers and the suspended continuations are all as before. *)
Theorem requestInstall_without_signal (w : World) (i : Instance) :
  comp w = Some i -> deferredPrompt i = None ->
  let w' := handleInstallClick i w in
  log w' = log w ++ [Alert install_instructions] /\
  localStorage w' = localStorage w /\
  installed w' = installed w /\ dismissed w' = dismissed w /\
  comp w' = comp w /\ visible w' = visible w /\ held w' = None /\
  timers w' = timers w /\ awaiting w' = awaiting w /\ now w' = now w.
Proof.
  intros Hc Hd. cbv zeta. unfold handleInstallClick. rewrite Hd.
  unfold held, visible, installed, dismissed, getItem. simpl. rewrite Hc.
  repeat split; assumption.
Qed.

Lemma requestInstall_without_signal_witness :
  let w := mount false (boot 0 ∅) in
  let i := mkInstance 0 false None None None in
  log (handleInstallClick i w) = [Alert install_instructions] /\
  localStorage (handleInstallClick i w) = ∅.
Proof.
  cbv zeta.
  destruct (requestInstall_without_signal (mount false (boot 0 ∅))
              (mkInstance 0 false None None None))
    as (H1 & H2 & _); [reflexivity..|].
  cbv zeta in *. split; [exact H1 | exact H2].
Defined.

(** C6.  Pressing the install button while a signal is held calls the
    signal's prompt and changes nothing in the store.  When the platform
    later reports the outcome, whatever happened in between on the still
    mounted instance: on [accepted] the flag [installed] is written and the
    banner is hidden; on [dismissed] the banner is hidden and the store is
    left as it was, so [installed] stays false if it was. *)
Theorem requestInstall_with_signal
    (w : World) (i : Instance) (e : Signal) (o : string) (evs : list Event) :
  comp w = Some i -> deferredPrompt i = Some e ->
  forallb (leaves_pending e) evs = true ->
  let w1 := handleInstallClick i w in
  let wm := run evs w1 in
  let w2 := userChoice e o wm in
  log w1 = log w ++ [Prompt e] /\ localStorage w1 = localStorage w /\
  (o = "accepted"%string ->
     getItem key_installed w2 = Some "true"%string /\ installed w2 = true /\
     visible w2 = false) /\
  (o = "dismissed"%string ->
     visible w2 = false /\ localStorage w2 = localStorage wm /\
     (installed wm = false -> installed w2 = false)).
Proof.
  intros Hc Hd Hevs. cbv zeta.
  destruct (click_wait_choice i e o evs w Hc Hd Hevs) as (Hc2 & Hs2).
  split; [|split; [|split]].
  - rewrite (handleInstallClick_held i e) by exact Hd. reflexivity.
  - rewrite (handleInstallClick_held i e) by exact Hd. reflexivity.
  - intros ->. unfold installed, getItem, visible. rewrite Hc2, Hs2.
    rewrite outcome_store_accepted. auto.
  - intros ->. unfold installed, getItem, visible. rewrite Hc2, Hs2.
    rewrite outcome_store_other by discriminate. auto.
Qed.

Lemma requestInstall_with_signal_witness :
  let w := run [EvMount false; EvBeforeInstallPrompt 1%nat; EvElapse 1000] (boot 0 ∅) in
  let i := mkInstance 0 true (Some 1%nat) None None in
  let wm := run [EvElapse 2000; EvBeforeInstallPrompt 2%nat] (handleInstallClick i w) in
  installed (userChoice 1%nat "accepted" wm) = true /\
  visible (userChoice 1%nat "accepted" wm) = false.
Proof.
  cbv zeta.
  destruct (requestInstall_with_signal
              (run [EvMount false; EvBeforeInstallPrompt 1%nat; EvElapse 1000] (boot 0 ∅))
              (mkInstance 0 true (Some 1%nat) None None) 1%nat "accepted"
              [EvElapse 2000; EvBeforeInstallPrompt 2%nat])
    as (_ & _ & H & _); [vm_compute; reflexivity | reflexivity | reflexivity |].
  destruct (H eq_refl) as (_ & H1 & H2). split; [exact H1 | exact H2].
Defined.

(** C5.  The component has one slot for a signal.  A new signal takes the
    slot whatever was in it, and once the prompt of the held signal has been
    answered the slot is empty, whatever the answer and whatever happened on
    the mounted instance while the answer was awaited. *)
Theorem single_signal_slot
    (w : World) (i : Instance) (e e' : Signal) (o : string) (evs : list Event) :
  comp w = Some i ->
  held (step w (EvBeforeInstallPrompt e')) = Some e' /\
  (deferredPrompt i = Some e -> forallb (leaves_pending e) evs = true ->
     held (userChoice e o (run evs (handleInstallClick i w))) = None).
Proof.
  intros Hc. split.
  - simpl. rewrite Hc. by rewrite handleBeforeInstallPrompt_spec.
  - intros Hd Hevs.
    destruct (click_wait_choice i e o evs w Hc Hd Hevs) as (Hc2 & _).
    unfold held. rewrite Hc2. reflexivity.
Qed.

Lemma single_signal_slot_witness :
  let w := run [EvMount false; EvBeforeInstallPrompt 1%nat; EvElapse 1000] (boot 0 ∅) in
  let i := mkInstance 0 true (Some 1%nat) None None in
  held (step w (EvBeforeInstallPrompt 2%nat)) = Some 2%nat /\
  held (userChoice 1%nat "dismissed"
          (run [EvBeforeInstallPrompt 2%nat] (handleInstallClick i w))) = None.
Proof.
  cbv zeta.
  destruct (single_signal_slot
              (run [EvMount false; EvBeforeInstallPrompt 1%nat; EvElapse 1000] (boot 0 ∅))
              (mkInstance 0 true (Some 1%nat) None None) 1%nat 2%nat "dismissed"
              [EvBeforeInstallPrompt 2%nat])
    as (H1 & H2); [vm_compute; reflexivity|].
  split; [exact H1 | exact (H2 eq_refl eq_refl)].
Defined.

(** ** What the component writes to the store *)

Lemma keys_differ : key_dismissed <> key_installed.
Proof. unfold key_dismissed, key_installed. discriminate. Qed.

(** One event changes the store in at most one of three ways. *)
Lemma step_store w ev :
  localStorage (step w ev) = localStorage w \/
  (may_write_installed ev = true /\
   localStorage (step w ev) = <[key_installed := "true"%string]> (localStorage w)) \/
  (is_dismiss_click ev = true /\
   localStorage (step w ev) = <[key_dismissed := "true"%string]> (localStorage w)) \/
  ((exists d, ev = EvElapse d) /\
   localStorage (step w ev) = delete key_dismissed (localStorage w)).
Proof.
  destruct ev as [sa| | |e| | | |e o|d]; simpl.
  - destruct (comp w); [by left|]. unfold mount.
    destruct sa; simpl; [right; left; done | by left].
  - by left.
  - by left.
  - destruct (comp w) as [i|] eqn:Hc; [|by left].
    rewrite handleBeforeInstallPrompt_spec by exact Hc. by left.
  - destruct (comp w) as [i|] eqn:Hc; [|by left].
    rewrite handleAppInstalled_spec by exact Hc. right; left. done.
  - destruct (comp w) as [i|] eqn:Hc; [|by left].
    destruct (showPrompt i); [|by left].
    destruct (handleInstallClick_frame i w) as (_ & Es & _). by left.
  - destruct (comp w) as [i|] eqn:Hc; [|by left].
    destruct (showPrompt i); [|by left].
    rewrite handleDismiss_spec by exact Hc. right; right; left. done.
  - rewrite userChoice_spec, resume_all_spec. simpl.
    destruct (filter _ _); [by left|]. unfold outcome_store.
    destruct (String.eqb o "accepted"); [right; left; done | by left].
  - rewrite elapse_spec, fire_all_spec. simpl.
    destruct (existsb _ _); [|by left].
    right; right; right. split; [by exists d | done].
Qed.

(** X3.  The component reads and writes two keys of the store and no other:
    whatever happens, every other key keeps its value or its absence. *)
Theorem other_keys_untouched (w : World) (evs : list Event) (k : string) :
  k <> key_dismissed -> k <> key_installed ->
  localStorage (run evs w) !! k = localStorage w !! k.
Proof.
  intros Hd Hi. revert w. induction evs as [|ev evs IH]; intros w; [done|].
  simpl. rewrite IH.
  destruct (step_store w ev) as [->|[[_ ->]|[[_ ->]|[_ ->]]]].
  - done.
  - by rewrite lookup_insert_ne.
  - by rewrite lookup_insert_ne.
  - by rewrite lookup_delete_ne.
Qed.

Lemma other_keys_untouched_witness :
  let w := boot 0 {[ "theme"%string := "dark"%string ]} in
  localStorage (run [EvMount true; EvBeforeInstallPrompt 1%nat; EvElapse 1000;
                     EvDismissClick; EvElapse cooldown] w) !! "theme"%string
  = Some "dark"%string.
Proof.
  cbv zeta. rewrite other_keys_untouched.
  - reflexivity.
  - discriminate.
  - discriminate.
Defined.

(** X4.  [appInstalled] is written by the display-mode check at a mount in
    standalone mode, by the installed event and by an accepted outcome, and
    by nothing else: a run without these three leaves the key as it was. *)
Theorem installed_key_writers (w : World) (evs : list Event) :
  forallb (fun ev => negb (may_write_installed ev)) evs = true ->
  getItem key_installed (run evs w) = getItem key_installed w.
Proof.
  unfold getItem. revert w. induction evs as [|ev evs IH]; intros w Hevs; [done|].
  simpl in Hevs. apply andb_true_iff in Hevs as [Hev Hevs].
  apply negb_true_iff in Hev. simpl. rewrite IH by exact Hevs.
  pose proof keys_differ as Hk.
  destruct (step_store w ev) as [->|[[Hw _]|[[_ ->]|[_ ->]]]].
  - done.
  - congruence.
  - by rewrite lookup_insert_ne.
  - by rewrite lookup_delete_ne.
Qed.

Lemma installed_key_writers_witness :
  getItem key_installed
    (run [EvMount false; EvBeforeInstallPrompt 1%nat; EvElapse 1000;
          EvInstallClick; EvUserChoice 1%nat "dismissed"; EvElapse cooldown]
         (boot 0 ∅)) = None.
Proof.
  rewrite installed_key_writers; reflexivity.
Defined.

(** X5.  [installPromptDismissed] is set by a click on a dismiss control and
    by nothing else: if the flag is unset, it stays unset for as long as
    nobody clicks one. *)
Theorem dismissed_needs_click (w : World) (evs : list Event) :
  dismissed w = false ->
  forallb (fun ev => negb (is_dismiss_click ev)) evs = true ->
  dismissed (run evs w) = false.
Proof.
  unfold dismissed, getItem. revert w.
  induction evs as [|ev evs IH]; intros w Hw Hevs; [done|].
  simpl in Hevs. apply andb_true_iff in Hevs as [Hev Hevs].
  apply negb_true_iff in Hev. simpl. apply IH; [|exact Hevs].
  pose proof keys_differ as Hk.
  destruct (step_store w ev) as [->|[[_ ->]|[[Hc _]|[_ ->]]]].
  - done.
  - by rewrite lookup_insert_ne.
  - congruence.
  - by rewrite lookup_delete_eq.
Qed.

Lemma dismissed_needs_click_witness :
  dismissed (run [EvMount false; EvBeforeInstallPrompt 1%nat; EvElapse 1000;
                  EvInstallClick; EvUserChoice 1%nat "dismissed"] (boot 0 ∅))
  = false.
Proof.
  apply dismissed_needs_click; reflexivity.
Defined.

(** ** Dismissal and its cooldown *)

Lemma existsb_filter_false {A} (f : A -> bool) (P : A -> Prop)
    `{!forall x, Decision (P x)} (l : list A) :
  existsb f l = false -> existsb f (filter P l) = false.
Proof.
  rewrite !existsb_false. intros Hall x Hx.
  apply list_elem_of_filter in Hx as [_ Hx]. by apply Hall.
Qed.





(** ** Where timers come from *)

(** A timer in the queue after an event was there before, or is the show
    timer of a signal at an eligible instance, or is the cooldown timer of a
    click on a dismiss control of a visible banner. *)
Lemma step_timers w ev x :
  x ∈ timers (step w ev) ->
  x ∈ timers w \/
  (exists i, is_signal ev = true /\ comp w = Some i /\ eligible i = true /\
             x = show_timer i w) \/
  (exists i, is_dismiss_click ev = true /\ comp w = Some i /\
             showPrompt i = true /\ x = mkTimer (now w + cooldown) ClearDismissed).
Proof.
  destruct ev as [sa| | |e| | | |e o|d]; simpl.
  - destruct (comp w); [by left|]. unfold mount. destruct sa; by left.
  - by left.
  - intros H. by apply elem_of_nil in H.
  - destruct (comp w) as [i|] eqn:Hc; [|by left].
    rewrite handleBeforeInstallPrompt_spec by exact Hc. simpl.
    destruct (eligible i) eqn:He; [|by left].
    intros H. apply elem_of_insert_timer in H as [->|H]; [|by left].
    right; left. by exists i.
  - destruct (comp w) as [i|] eqn:Hc; [|by left].
    rewrite handleAppInstalled_spec by exact Hc. by left.
  - destruct (comp w) as [i|] eqn:Hc; [|by left].
    destruct (showPrompt i); [|by left].
    destruct (handleInstallClick_frame i w) as (_ & _ & Et & _).
    rewrite Et. by left.
  - destruct (comp w) as [i|] eqn:Hc; [|by left].
    destruct (showPrompt i) eqn:Hs; [|by left].
    rewrite handleDismiss_spec by exact Hc. simpl.
    intros H. apply elem_of_insert_timer in H as [->|H]; [|by left].
    right; right. by exists i.
  - rewrite userChoice_spec, resume_all_spec. by left.
  - rewrite elapse_spec, fire_all_spec. simpl.
    intros H. apply list_elem_of_filter in H as [_ H]. by left.
Qed.

(** ** When the banner can be on screen *)

(** X6.  Whenever the banner is on screen, its instance found both flags
    unset when it was mounted. *)
Theorem visible_only_if_eligible (w : World) (i : Instance) :
  reachable w -> comp w = Some i -> showPrompt i = true ->
  truthy (promptDismissed i) = false /\ truthy (alreadyInstalled i) = false.
Proof.
  intros Hr Hc Hs. destruct (Inv_reachable w Hr) as [_ Hb].
  destruct (blocked i) eqn:E.
  - destruct (Hb i Hc E) as [Hf _]. congruence.
  - unfold blocked in E. by apply orb_false_iff in E.
Qed.

Lemma visible_only_if_eligible_witness :
  truthy (promptDismissed (mkInstance 0 true (Some 1%nat) None None)) = false /\
  truthy (alreadyInstalled (mkInstance 0 true (Some 1%nat) None None)) = false.
Proof.
  apply (visible_only_if_eligible
           (run [EvMount false; EvBeforeInstallPrompt 1%nat; EvElapse 1000] (boot 0 ∅))).
  - exists 0, ∅, [EvMount false; EvBeforeInstallPrompt 1%nat; EvElapse 1000].
    reflexivity.
  - vm_compute. reflexivity.
  - reflexivity.
Defined.

Lemma unscheduled_step w ev :
  is_signal ev = false -> Inv w -> unscheduled w -> unscheduled (step w ev).
Proof.
  intros Hev [[Ht _] _] Hu i' Hc'.
  assert (forall x, x ∈ timers (step w ev) -> x ∈ timers w \/
            exists i, comp w = Some i /\ showPrompt i = true) as Htm.
  { intros x Hx.
    destruct (step_timers w ev x Hx) as [H|[(i & Hs & _)|(i & _ & Hc & Hs & _)]];
      [by left | congruence | right; by exists i]. }
  destruct (step_comp w ev i' Hc') as [(i & Hc & Ei & _)|(Hn & Hm & _)].
  - destruct (Hu i Hc) as [Hs Hno]. split.
    + destruct ev as [sa| | |e| | | |e o|d]; simpl in Hc', Hev.
      * rewrite Hc in Hc'. simpl in Hc'. rewrite Hc in Hc'. by injection Hc' as <-.
      * discriminate Hc'.
      * discriminate Hc'.
      * discriminate Hev.
      * rewrite Hc in Hc'.
        rewrite handleAppInstalled_spec in Hc' by exact Hc. by injection Hc' as <-.
      * rewrite Hc, Hs in Hc'. simpl in Hc'. rewrite Hc in Hc'. by injection Hc' as <-.
      * rewrite Hc, Hs in Hc'. simpl in Hc'. rewrite Hc in Hc'. by injection Hc' as <-.
      * rewrite userChoice_spec, resume_all_spec in Hc'. simpl in Hc'.
        rewrite Hc in Hc'. destruct (existsb _ _); by injection Hc' as <-.
      * rewrite elapse_spec, fire_all_spec in Hc'. simpl in Hc'.
        rewrite Hc in Hc'. injection Hc' as <-. simpl. rewrite Hs. simpl.
        apply existsb_false. intros x Hx.
        apply list_elem_of_filter in Hx as [_ Hx].
        destruct (shows (inst_id i) x) eqn:E; [|done].
        apply shows_true in E. by destruct (Hno x Hx).
    + intros x Hx. rewrite Ei.
      destruct (Htm x Hx) as [H|(i0 & Hc0 & Hs0)]; [by apply Hno | congruence].
  - destruct ev as [sa| | |e| | | |e o|d]; try discriminate Hm.
    simpl in Hc'. rewrite Hn in Hc'.
    assert (inst_id i' = next_id w /\ showPrompt i' = false) as [Ei Es].
    { unfold mount in Hc'. destruct sa; simpl in Hc'; by injection Hc' as <-. }
    split; [exact Es|]. intros x Hx Ha.
    destruct (Htm x Hx) as [H|(i0 & Hc0 & _)]; [|congruence].
    rewrite Ei in Ha. specialize (Ht x _ H Ha). lia.
Qed.

(** X7.  The banner is shown only in answer to a signal.  From any state in
    which no instance is mounted, and so from a freshly loaded page, it stays
    off screen until a [beforeinstallprompt] event arrives; timers left by
    earlier instances do not show it. *)
Theorem no_signal_no_banner (w : World) (evs : list Event) :
  reachable w -> comp w = None ->
  forallb (fun ev => negb (is_signal ev)) evs = true ->
  visible (run evs w) = false.
Proof.
  intros Hr Hc Hevs.
  assert (Inv w /\ unscheduled w) as HI.
  { split; [by apply Inv_reachable|]. intros i Hi. congruence. }
  clear Hr Hc. revert w HI Hevs.
  induction evs as [|ev evs IH]; intros w [HI Hu] Hevs.
  - unfold visible, run. simpl. destruct (comp w) as [i|] eqn:Hc; [|done].
    by destruct (Hu i Hc).
  - simpl in Hevs. apply andb_true_iff in Hevs as [Hev Hevs].
    apply negb_true_iff in Hev. simpl. apply IH; [|exact Hevs].
    split; [by apply Inv_step | by apply unscheduled_step].
Qed.

Lemma no_signal_no_banner_witness :
  let w := run [EvMount false; EvBeforeInstallPrompt 1%nat; EvUnmount] (boot 0 ∅) in
  timers w = [mkTimer 1000 (ShowPrompt 0)] /\
  visible (run [EvMount false; EvElapse 1000] w) = false.
Proof.
  cbv zeta. split; [vm_compute; reflexivity|].
  apply no_signal_no_banner.
  - exists 0, ∅, [EvMount false; EvBeforeInstallPrompt 1%nat; EvUnmount].
    reflexivity.
  - reflexivity.
  - reflexivity.
Defined.

(** ** Across page loads *)

Lemma installed_run evs w : installed w = true -> installed (run evs w) = true.
Proof.
  revert w. induction evs as [|ev evs IH]; intros w H; [exact H|].
  apply IH, installed_step, H.
Qed.

Lemma ends_instance_comp w ev : ends_instance ev = true -> comp (step w ev) = None.
Proof. destruct ev; try discriminate; reflexivity. Qed.

(** Once [installed] is set and the current instance has ended, every later
    instance is mounted with the flag set and stays hidden. *)
Lemma hidden_after_end w ev evs :
  Inv w -> installed w = true -> ends_instance ev = true ->
  visible (run (ev :: evs) w) = false.
Proof.
  intros HI Hi Hev. simpl.
  assert (knows_installed (step w ev)) as Hk.
  { split; [by apply installed_step|].
    intros i Hc. rewrite ends_instance_comp in Hc by exact Hev. discriminate. }
  apply hidden_if_blocked.
  - by apply Inv_run, Inv_step.
  - intros i Hc. unfold blocked.
    destruct (knows_installed_run evs _ Hk) as [_ Ha].
    rewrite (Ha i Hc). apply orb_true_r.
Qed.

(** X8.  The display-mode check of lines 47-50.  Mounting in standalone mode
    writes [appInstalled] and touches nothing else in the store; mounting in
    a browser tab writes nothing.  After a standalone mount the flag is there
    for good, and once that instance has ended the banner is never shown
    again. *)
Theorem standalone_mount_marks_installed
    (w : World) (evs1 evs2 : list Event) (ev : Event) :
  reachable w -> comp w = None ->
  let w1 := step w (EvMount true) in
  localStorage w1 = <[key_installed := "true"%string]> (localStorage w) /\
  getItem key_dismissed w1 = getItem key_dismissed w /\
  localStorage (step w (EvMount false)) = localStorage w /\
  installed (run evs1 w1) = true /\
  (ends_instance ev = true -> visible (run (evs1 ++ ev :: evs2) w1) = false).
Proof.
  intros Hr Hc. cbv zeta. simpl step. rewrite Hc.
  assert (installed (mount true w) = true) as Hi.
  { unfold installed, getItem, mount. simpl. by rewrite lookup_insert_eq. }
  split; [reflexivity|]. split.
  { unfold getItem, mount. simpl. rewrite lookup_insert_ne; [done|].
    intros E. by apply keys_differ. }
  split; [reflexivity|]. split; [by apply installed_run|].
  intros Hev. rewrite run_app. apply hidden_after_end; [|by apply installed_run|done].
  exact (Inv_run evs1 _ (Inv_mount true w Hc (Inv_reachable w Hr))).
Qed.

Lemma standalone_mount_marks_installed_witness :
  let w1 := step (boot 0 ∅) (EvMount true) in
  visible (run ([EvBeforeInstallPrompt 1%nat] ++ EvReload ::
                [EvMount false; EvBeforeInstallPrompt 2%nat; EvElapse 1000]) w1)
  = false.
Proof.
  cbv zeta.
  destruct (standalone_mount_marks_installed (boot 0 ∅)
              [EvBeforeInstallPrompt 1%nat]
              [EvMount false; EvBeforeInstallPrompt 2%nat; EvElapse 1000] EvReload)
    as (_ & _ & _ & _ & H).
  - exists 0, ∅, []. reflexivity.
  - reflexivity.
  - apply H. reflexivity.
Defined.

(** X9.  The component never removes [appInstalled] and never overwrites it
    with a falsy value: once the flag is set it stays set.  The instance that
    was mounted before may still show its banner, but once it has ended, by
    unmount or by reload, the banner is never on screen again. *)
Theorem installed_outlives_instance
    (w : World) (evs1 evs2 : list Event) (ev : Event) :
  reachable w -> installed w = true ->
  installed (run evs1 w) = true /\
  (ends_instance ev = true -> visible (run (evs1 ++ ev :: evs2) w) = false).
Proof.
  intros Hr Hi. split; [by apply installed_run|].
  intros Hev. rewrite run_app.
  apply hidden_after_end; [|by apply installed_run|exact Hev].
  by apply Inv_run, Inv_reachable.
Qed.

Lemma installed_outlives_instance_witness :
  let w := run [EvMount false; EvBeforeInstallPrompt 1%nat; EvElapse 1000;
                EvInstallClick; EvUserChoice 1%nat "accepted"] (boot 0 ∅) in
  visible (run ([EvBeforeInstallPrompt 2%nat] ++ EvUnmount ::
                [EvElapse 1000; EvMount false; EvBeforeInstallPrompt 3%nat;
                 EvElapse 1000]) w) = false.
Proof.
  cbv zeta.
  destruct (installed_outlives_instance
              (run [EvMount false; EvBeforeInstallPrompt 1%nat; EvElapse 1000;
                    EvInstallClick; EvUserChoice 1%nat "accepted"] (boot 0 ∅))
              [EvBeforeInstallPrompt 2%nat]
              [EvElapse 1000; EvMount false; EvBeforeInstallPrompt 3%nat;
               EvElapse 1000] EvUnmount) as (_ & H).
  - eexists 0, ∅, _. reflexivity.
  - vm_compute. reflexivity.
  - apply H. reflexivity.
Defined.

Lemma dismissed_for_good_step w ev :
  Inv w -> dismissed_for_good w -> dismissed_for_good (step w ev).
Proof.
  intros [_ Hb] (Hs & Ht & Hk).
  assert (forall i, comp w = Some i -> showPrompt i = false /\ eligible i = false)
    as Hhid.
  { intros i Hc. rewrite eligible_blocked.
    assert (blocked i = true) as Hbl.
    { unfold blocked. by rewrite (Hk i Hc). }
    rewrite Hbl. split; [by destruct (Hb i Hc Hbl) | done]. }
  split; [|split].
  - unfold getItem in *.
    destruct (step_store w ev) as [E|[[_ E]|[[_ E]|[[d' ->] _]]]].
    + by rewrite E.
    + rewrite E, lookup_insert_ne; [exact Hs | intros E'; by apply keys_differ].
    + rewrite E. apply lookup_insert_eq.
    + simpl. rewrite elapse_spec, fire_all_spec. simpl.
      by rewrite existsb_filter_false.
  - apply existsb_false. intros x Hx.
    destruct (step_timers w ev x Hx)
      as [H|[(i & _ & _ & _ & ->)|(i & _ & Hc & Hsh & _)]].
    + rewrite existsb_false in Ht. by apply Ht.
    + reflexivity.
    + destruct (Hhid i Hc). congruence.
  - intros i' Hc'.
    destruct (step_comp w ev i' Hc') as [(i & Hc & _ & Ed & _)|(_ & _ & Ed & _)];
      rewrite Ed; [by apply Hk | by rewrite Hs].
Qed.

Lemma dismissed_for_good_run evs w :
  Inv w -> dismissed_for_good w -> dismissed_for_good (run evs w).
Proof.
  revert w. induction evs as [|ev evs IH]; intros w HI H; [exact H|].
  simpl. apply IH; [by apply Inv_step | by apply dismissed_for_good_step].
Qed.

(** X10.  The cooldown is a timer of the page and the flag is re-read at
    every mount.  So when the page is reloaded while [dismissed] is set,
    nothing is left that could remove the flag: whatever happens afterwards,
    [dismissed] stays set and the banner is never shown again. *)
Theorem dismissal_permanent_after_reload (w : World) (evs : list Event) :
  reachable w -> getItem key_dismissed w = Some "true"%string ->
  let w' := run evs (step w EvReload) in
  getItem key_dismissed w' = Some "true"%string /\ visible w' = false.
Proof.
  intros Hr Hd. cbv zeta.
  set (w0 := step w EvReload).
  assert (Inv w0) as HI by (by apply Inv_step, Inv_reachable).
  assert (dismissed_for_good w0) as H0.
  { split; [exact Hd|]. split; [reflexivity|]. intros j Hj. discriminate. }
  destruct (dismissed_for_good_run evs w0 HI H0) as (Hd' & _ & Hk).
  split; [exact Hd'|].
  apply hidden_if_blocked; [by apply Inv_run|].
  intros j Hj. unfold blocked. by rewrite (Hk j Hj).
Qed.

Lemma dismissal_permanent_after_reload_witness :
  let w := run [EvMount false; EvBeforeInstallPrompt 1%nat; EvElapse 1000;
                EvDismissClick; EvElapse 86400000] (boot 0 ∅) in
  let w' := run [EvMount false; EvElapse (52 * cooldown);
                 EvBeforeInstallPrompt 2%nat; EvElapse 1000]
                (step w EvReload) in
  getItem key_dismissed w' = Some "true"%string /\ visible w' = false.
Proof.
  cbv zeta. apply dismissal_permanent_after_reload.
  - eexists 0, ∅, _. reflexivity.
  - vm_compute. reflexivity.
Defined.

(** ** An outcome that arrives late *)

(** X11.  A click suspended on a signal's outcome survives the teardown of
    its instance.  When the outcome arrives it resumes exactly once; an
    accepted outcome still records the installation in the store, any other
    outcome string leaves the store alone, and no banner appears. *)
Theorem outcome_after_teardown (w : World) (id : nat) (e : Signal) (o : string) :
  (id, e) ∈ awaiting w ->
  let w1 := step w EvUnmount in
  (id, e) ∈ awaiting w1 /\
  getItem key_installed (step w1 (EvUserChoice e "accepted")) = Some "true"%string /\
  (o <> "accepted"%string ->
     localStorage (step w1 (EvUserChoice e o)) = localStorage w) /\
  visible (step w1 (EvUserChoice e o)) = false /\
  (forall id', (id', e) ∉ awaiting (step w1 (EvUserChoice e o))).
Proof.
  intros Hin. cbv zeta. simpl step.
  assert ((id, e) ∈ filter (fun p => Nat.eqb (snd p) e = true) (awaiting w))
    as Hw.
  { apply list_elem_of_filter. split; [simpl; apply Nat.eqb_refl | exact Hin]. }
  split; [exact Hin|].
  rewrite !userChoice_spec, !resume_all_spec. unfold getItem, visible.
  cbn [localStorage comp awaiting unmount set_comp set_awaiting].
  split; [|split; [|split]].
  - destruct (filter _ (awaiting w)); [by apply elem_of_nil in Hw|].
    apply outcome_store_accepted.
  - intros Ho. destruct (filter _ (awaiting w)); [done|].
    by apply outcome_store_other.
  - reflexivity.
  - intros id' H. apply list_elem_of_filter in H as [H _].
    simpl in H. rewrite Nat.eqb_refl in H. discriminate.
Qed.

Lemma outcome_after_teardown_witness :
  let w := run [EvMount false; EvBeforeInstallPrompt 1%nat; EvElapse 1000;
                EvInstallClick] (boot 0 ∅) in
  getItem key_installed (run [EvUnmount; EvUserChoice 1%nat "accepted"] w)
  = Some "true"%string.
Proof.
  cbv zeta.
  destruct (outcome_after_teardown
              (run [EvMount false; EvBeforeInstallPrompt 1%nat; EvElapse 1000;
                    EvInstallClick] (boot 0 ∅)) 0%nat 1%nat "accepted")
    as (_ & H & _).
  - vm_compute. apply list_elem_of_here.
  - exact H.
Defined.
